(** * Stock management backend: admin sessions and the in-memory catalog

    Shallow embedding of [src/stock_backend/src/api/main.py]: the
    process-wide mutable state (the dict [ADMIN_SESSIONS] and the lists
    [CATEGORIES] and [PRODUCTS]) is a [Store] threaded through a small
    state-and-exception monad.  A Python [raise HTTPException(...)] aborts
    the handler but keeps every mutation already done to the shared
    objects, so the monad returns the current store on failure too. *)

From Stdlib Require Import ZArith String.
From stdpp Require Import base list gmap strings.

Open Scope Z_scope.

(** ** Data model (pydantic models [Category], [Product], request bodies) *)

Record Category := mkCategory {
  cat_id : Z;
  cat_name : string
}.

Record Product := mkProduct {
  prod_id : Z;
  prod_name : string;
  prod_category_id : Z;
  prod_image_url : string;
  prod_quantity : Z
}.

(** [CategoryCreate] / [CategoryUpdate] *)
Record CategoryCreate := mkCategoryCreate { cc_name : string }.
Record CategoryUpdate := mkCategoryUpdate { cu_name : option string }.

(** [ProductCreate] / [ProductUpdate] *)
Record ProductCreate := mkProductCreate {
  pc_name : string;
  pc_category_id : Z;
  pc_image_url : string;
  pc_quantity : Z
}.

Record ProductUpdate := mkProductUpdate {
  pu_name : option string;
  pu_category_id : option Z;
  pu_image_url : option string;
  pu_quantity : option Z
}.

(** [LoginRequest] *)
Record LoginRequest := mkLoginRequest { username : string; password : string }.

(** [fastapi.HTTPException(status_code=..., detail=...)] *)
Record HTTPException := mkHTTPException {
  status_code : Z;
  detail : string
}.

(** The process-wide state: [ADMIN_SESSIONS] (token -> username),
    [CATEGORIES] and [PRODUCTS]. *)
Record Store := mkStore {
  ADMIN_SESSIONS : gmap string string;
  CATEGORIES : list Category;
  PRODUCTS : list Product
}.

Definition set_sessions (s : gmap string string) (st : Store) : Store :=
  mkStore s (CATEGORIES st) (PRODUCTS st).
Definition set_categories (cs : list Category) (st : Store) : Store :=
  mkStore (ADMIN_SESSIONS st) cs (PRODUCTS st).
Definition set_products (ps : list Product) (st : Store) : Store :=
  mkStore (ADMIN_SESSIONS st) (CATEGORIES st) ps.

(** ** A state monad with Python exceptions *)

Inductive Result (A : Type) :=
| Ok (a : A)
| Raise (e : HTTPException).
Arguments Ok {A} a.
Arguments Raise {A} e.

Definition M (A : Type) : Type := Store -> Result A * Store.

Definition ret {A} (a : A) : M A := fun st => (Ok a, st).
Definition raise {A} (e : HTTPException) : M A := fun st => (Raise e, st).
Definition get : M Store := fun st => (Ok st, st).
Definition put (st' : Store) : M unit := fun _ => (Ok tt, st').
Definition bind {A B} (m : M A) (k : A -> M B) : M B :=
  fun st => match m st with
            | (Ok a, st1) => k a st1
            | (Raise e, st1) => (Raise e, st1)
            end.

Notation "x <-- m ;; k" := (bind m (fun x => k))
  (at level 100, m at next level, right associativity).
Notation "m ;;; k" := (bind m (fun _ => k))
  (at level 100, right associativity).

(** ** Python helpers *)

(** [max(xs, default=d)] *)
Definition py_max_default (d : Z) (xs : list Z) : Z :=
  match xs with
  | [] => d
  | x :: rest => fold_left Z.max rest x
  end.

(** [any(cat.id == cid for cat in CATEGORIES)] *)
Definition category_exists (cid : Z) (cats : list Category) : bool :=
  existsb (fun cat => cat_id cat =? cid) cats.

(** The first index of the list element with the given id: the position
    at which a Python [for x in xs: if x.id == k: ...] loop stops, and
    [next((i for i, x in enumerate(xs) if x.id == k), None)]. *)
Definition find_category (cid : Z) (cats : list Category) : option (nat * Category) :=
  list_find (fun cat => cat_id cat = cid) cats.
Definition find_product (pid : Z) (prods : list Product) : option (nat * Product) :=
  list_find (fun p => prod_id p = pid) prods.

(** Writing back a mutated element: the loop variable is the object stored
    in the list, so an attribute assignment updates the list in place. *)
Definition write_category (i : nat) (cat : Category) : M unit :=
  st <-- get ;; put (set_categories (<[i := cat]> (CATEGORIES st)) st).
Definition write_product (i : nat) (p : Product) : M unit :=
  st <-- get ;; put (set_products (<[i := p]> (PRODUCTS st)) st).

(** ** Session store *)

Definition ADMIN_USERNAME : string := "admin".
Definition ADMIN_PASSWORD : string := "admin".

Definition unauthorized_token : HTTPException :=
  mkHTTPException 401 "Invalid or expired admin authentication token.".
Definition unauthorized_login : HTTPException :=
  mkHTTPException 401 "Invalid username or password".

(** [authenticate_admin_token(token)] *)
Definition authenticate_admin_token (token : string) : M string :=
  st <-- get ;;
  match ADMIN_SESSIONS st !! token with
  | Some user => ret user
  | None => raise unauthorized_token
  end.

(** [admin_login(data)]; the value of [str(uuid.uuid4())] is supplied by
    the environment as [uuid4]. *)
Definition admin_login (uuid4 : string) (data : LoginRequest) : M string :=
  if String.eqb (username data) ADMIN_USERNAME && String.eqb (password data) ADMIN_PASSWORD
  then st <-- get ;;
       put (set_sessions (<[uuid4 := username data]> (ADMIN_SESSIONS st)) st) ;;;
       ret uuid4
  else raise unauthorized_login.

(** ** Catalog store *)

Definition category_not_found : HTTPException :=
  mkHTTPException 404 "Category not found.".
Definition product_not_found : HTTPException :=
  mkHTTPException 404 "Product not found.".
Definition category_does_not_exist : HTTPException :=
  mkHTTPException 400 "Category does not exist.".

(** [_get_next_category_id()] *)
Definition _get_next_category_id : M Z :=
  st <-- get ;; ret (py_max_default 0 (cat_id <$> CATEGORIES st) + 1).

(** [_get_next_product_id()] *)
Definition _get_next_product_id : M Z :=
  st <-- get ;; ret (py_max_default 0 (prod_id <$> PRODUCTS st) + 1).

(** [list_categories()] and [list_products()] *)
Definition list_categories : M (list Category) :=
  st <-- get ;; ret (CATEGORIES st).
Definition list_products : M (list Product) :=
  st <-- get ;; ret (PRODUCTS st).

(** [create_category(data)] *)
Definition create_category (data : CategoryCreate) : M Category :=
  nid <-- _get_next_category_id ;;
  let cat := mkCategory nid (cc_name data) in
  st <-- get ;;
  put (set_categories (CATEGORIES st ++ [cat]) st) ;;;
  ret cat.

(** [update_category(category_id, data)] *)
Definition update_category (category_id : Z) (data : CategoryCreate) : M Category :=
  st <-- get ;;
  match find_category category_id (CATEGORIES st) with
  | Some (i, cat) =>
      let cat1 := mkCategory (cat_id cat) (cc_name data) in
      write_category i cat1 ;;;
      ret cat1
  | None => raise category_not_found
  end.

(** [partial_update_category(category_id, data)] *)
Definition partial_update_category (category_id : Z) (data : CategoryUpdate) : M Category :=
  st <-- get ;;
  match find_category category_id (CATEGORIES st) with
  | Some (i, cat) =>
      match cu_name data with
      | Some n =>
          let cat1 := mkCategory (cat_id cat) n in
          write_category i cat1 ;;;
          ret cat1
      | None => ret cat
      end
  | None => raise category_not_found
  end.

(** [delete_category(category_id)]: [CATEGORIES.pop(idx)] followed by the
    rebinding of [PRODUCTS] to the products of other categories. *)
Definition delete_category (category_id : Z) : M unit :=
  st <-- get ;;
  match find_category category_id (CATEGORIES st) with
  | None => raise category_not_found
  | Some (idx, _) =>
      put (set_categories (delete idx (CATEGORIES st)) st) ;;;
      st1 <-- get ;;
      put (set_products
             (filter (fun p => prod_category_id p <> category_id) (PRODUCTS st1)) st1)
  end.

(** [create_product(data)] *)
Definition create_product (data : ProductCreate) : M Product :=
  st <-- get ;;
  if negb (category_exists (pc_category_id data) (CATEGORIES st))
  then raise category_does_not_exist
  else
    nid <-- _get_next_product_id ;;
    let prod := mkProduct nid (pc_name data) (pc_category_id data)
                          (pc_image_url data) (pc_quantity data) in
    st1 <-- get ;;
    put (set_products (PRODUCTS st1 ++ [prod]) st1) ;;;
    ret prod.

(** [update_product(product_id, data)]: the four attribute assignments,
    with no check of [data.category_id]. *)
Definition update_product (product_id : Z) (data : ProductCreate) : M Product :=
  st <-- get ;;
  match find_product product_id (PRODUCTS st) with
  | Some (i, prod) =>
      let p1 := mkProduct (prod_id prod) (pc_name data) (prod_category_id prod)
                          (prod_image_url prod) (prod_quantity prod) in
      write_product i p1 ;;;
      let p2 := mkProduct (prod_id p1) (prod_name p1) (pc_category_id data)
                          (prod_image_url p1) (prod_quantity p1) in
      write_product i p2 ;;;
      let p3 := mkProduct (prod_id p2) (prod_name p2) (prod_category_id p2)
                          (pc_image_url data) (prod_quantity p2) in
      write_product i p3 ;;;
      let p4 := mkProduct (prod_id p3) (prod_name p3) (prod_category_id p3)
                          (prod_image_url p3) (pc_quantity data) in
      write_product i p4 ;;;
      ret p4
  | None => raise product_not_found
  end.

(** [partial_update_product(product_id, data)]: each supplied field is
    assigned in turn on the product object held by [PRODUCTS]; the
    category check sits between the [name] and the [category_id]
    assignments. *)
Definition partial_update_product (product_id : Z) (data : ProductUpdate) : M Product :=
  st <-- get ;;
  match find_product product_id (PRODUCTS st) with
  | Some (i, prod) =>
      p1 <-- (match pu_name data with
              | Some n =>
                  let p := mkProduct (prod_id prod) n (prod_category_id prod)
                                     (prod_image_url prod) (prod_quantity prod) in
                  write_product i p ;;; ret p
              | None => ret prod
              end) ;;
      p2 <-- (match pu_category_id data with
              | Some c =>
                  st1 <-- get ;;
                  if negb (category_exists c (CATEGORIES st1))
                  then raise category_does_not_exist
                  else
                    let p := mkProduct (prod_id p1) (prod_name p1) c
                                       (prod_image_url p1) (prod_quantity p1) in
                    write_product i p ;;; ret p
              | None => ret p1
              end) ;;
      p3 <-- (match pu_image_url data with
              | Some u =>
                  let p := mkProduct (prod_id p2) (prod_name p2) (prod_category_id p2)
                                     u (prod_quantity p2) in
                  write_product i p ;;; ret p
              | None => ret p2
              end) ;;
      p4 <-- (match pu_quantity data with
              | Some q =>
                  let p := mkProduct (prod_id p3) (prod_name p3) (prod_category_id p3)
                                     (prod_image_url p3) q in
                  write_product i p ;;; ret p
              | None => ret p3
              end) ;;
      ret p4
  | None => raise product_not_found
  end.

(** [delete_product(product_id)] *)
Definition delete_product (product_id : Z) : M unit :=
  st <-- get ;;
  match find_product product_id (PRODUCTS st) with
  | None => raise product_not_found
  | Some (idx, _) => put (set_products (delete idx (PRODUCTS st)) st)
  end.

(** ** Seed data: the module-level [CATEGORIES] and [PRODUCTS] lists *)

Definition INITIAL_CATEGORIES : list Category := [
  mkCategory 1 "Beverages";
  mkCategory 2 "Snacks";
  mkCategory 3 "Meat";
  mkCategory 4 "Produce";
  mkCategory 5 "Dairy";
  mkCategory 6 "Bakery";
  mkCategory 7 "Frozen Foods";
  mkCategory 8 "Canned Goods";
  mkCategory 9 "Condiments";
  mkCategory 10 "Cleaning Supplies"
].

Definition INITIAL_PRODUCTS : list Product := [
  mkProduct 1 "Apple Juice" 1 "https://via.placeholder.com/150?text=Apple+Juice" 10;
  mkProduct 2 "Orange Soda" 1 "https://via.placeholder.com/150?text=Orange+Soda" 30;
  mkProduct 3 "Bottled Water" 1 "https://via.placeholder.com/150?text=Bottled+Water" 50;
  mkProduct 4 "Lemonade" 1 "https://via.placeholder.com/150?text=Lemonade" 12;
  mkProduct 5 "Iced Tea" 1 "https://via.placeholder.com/150?text=Iced+Tea" 8;
  mkProduct 6 "Cookies" 2 "https://via.placeholder.com/150?text=Cookies" 15;
  mkProduct 7 "Potato Chips" 2 "https://via.placeholder.com/150?text=Potato+Chips" 25;
  mkProduct 8 "Pretzels" 2 "https://via.placeholder.com/150?text=Pretzels" 7;
  mkProduct 9 "Popcorn" 2 "https://via.placeholder.com/150?text=Popcorn" 30;
  mkProduct 10 "Peanuts" 2 "https://via.placeholder.com/150?text=Peanuts" 22;
  mkProduct 11 "Chicken Breast" 3 "https://via.placeholder.com/150?text=Chicken+Breast" 14;
  mkProduct 12 "Beef Steak" 3 "https://via.placeholder.com/150?text=Beef+Steak" 6;
  mkProduct 13 "Turkey Slices" 3 "https://via.placeholder.com/150?text=Turkey+Slices" 16;
  mkProduct 14 "Bacon" 3 "https://via.placeholder.com/150?text=Bacon" 8;
  mkProduct 15 "Ham" 3 "https://via.placeholder.com/150?text=Ham" 9;
  mkProduct 16 "Bananas" 4 "https://via.placeholder.com/150?text=Bananas" 13;
  mkProduct 17 "Apples" 4 "https://via.placeholder.com/150?text=Apples" 17;
  mkProduct 18 "Carrots" 4 "https://via.placeholder.com/150?text=Carrots" 28;
  mkProduct 19 "Tomatoes" 4 "https://via.placeholder.com/150?text=Tomatoes" 19;
  mkProduct 20 "Lettuce" 4 "https://via.placeholder.com/150?text=Lettuce" 11;
  mkProduct 21 "Milk" 5 "https://via.placeholder.com/150?text=Milk" 10;
  mkProduct 22 "Cheese" 5 "https://via.placeholder.com/150?text=Cheese" 6;
  mkProduct 23 "Yogurt" 5 "https://via.placeholder.com/150?text=Yogurt" 8;
  mkProduct 24 "Butter" 5 "https://via.placeholder.com/150?text=Butter" 5;
  mkProduct 25 "Eggs (Dozen)" 5 "https://via.placeholder.com/150?text=Eggs" 31;
  mkProduct 26 "White Bread" 6 "https://via.placeholder.com/150?text=White+Bread" 20;
  mkProduct 27 "Croissant" 6 "https://via.placeholder.com/150?text=Croissant" 10;
  mkProduct 28 "Bagel" 6 "https://via.placeholder.com/150?text=Bagel" 15;
  mkProduct 29 "Multigrain Loaf" 6 "https://via.placeholder.com/150?text=Multigrain+Loaf" 8;
  mkProduct 30 "Donuts" 6 "https://via.placeholder.com/150?text=Donuts" 13;
  mkProduct 31 "Frozen Pizza" 7 "https://via.placeholder.com/150?text=Frozen+Pizza" 8;
  mkProduct 32 "Ice Cream" 7 "https://via.placeholder.com/150?text=Ice+Cream" 23;
  mkProduct 33 "Waffles" 7 "https://via.placeholder.com/150?text=Waffles" 10;
  mkProduct 34 "Vegetable Mix" 7 "https://via.placeholder.com/150?text=Vegetable+Mix" 16;
  mkProduct 35 "French Fries" 7 "https://via.placeholder.com/150?text=French+Fries" 21;
  mkProduct 36 "Canned Beans" 8 "https://via.placeholder.com/150?text=Canned+Beans" 27;
  mkProduct 37 "Canned Corn" 8 "https://via.placeholder.com/150?text=Canned+Corn" 18;
  mkProduct 38 "Tuna" 8 "https://via.placeholder.com/150?text=Tuna" 20;
  mkProduct 39 "Tomato Soup" 8 "https://via.placeholder.com/150?text=Tomato+Soup" 12;
  mkProduct 40 "Chili" 8 "https://via.placeholder.com/150?text=Chili" 8;
  mkProduct 41 "Ketchup" 9 "https://via.placeholder.com/150?text=Ketchup" 14;
  mkProduct 42 "Mayonnaise" 9 "https://via.placeholder.com/150?text=Mayonnaise" 6;
  mkProduct 43 "Mustard" 9 "https://via.placeholder.com/150?text=Mustard" 11;
  mkProduct 44 "Soy Sauce" 9 "https://via.placeholder.com/150?text=Soy+Sauce" 5;
  mkProduct 45 "BBQ Sauce" 9 "https://via.placeholder.com/150?text=BBQ+Sauce" 8;
  mkProduct 46 "Detergent" 10 "https://via.placeholder.com/150?text=Detergent" 10;
  mkProduct 47 "Sponge" 10 "https://via.placeholder.com/150?text=Sponge" 18;
  mkProduct 48 "Glass Cleaner" 10 "https://via.placeholder.com/150?text=Glass+Cleaner" 11;
  mkProduct 49 "Disinfectant" 10 "https://via.placeholder.com/150?text=Disinfectant" 12;
  mkProduct 50 "Broom" 10 "https://via.placeholder.com/150?text=Broom" 4;
  mkProduct 51 "Herbal Tea" 1 "https://via.placeholder.com/150?text=Herbal+Tea" 12;
  mkProduct 52 "Granola Bar" 2 "https://via.placeholder.com/150?text=Granola+Bar" 21;
  mkProduct 53 "Salami" 3 "https://via.placeholder.com/150?text=Salami" 10
].

(** The state at process start: no session, the seeded collections. *)
Definition initial_store : Store := mkStore ∅ INITIAL_CATEGORIES INITIAL_PRODUCTS.

(** ** Requests to the admin endpoints

    Each mutating endpoint is declared with
    [dependencies=[Depends(authenticate_admin_token)]]: the bearer token is
    checked first and the handler runs only when it is accepted. *)

Inductive Request :=
| ReqCreateCategory (data : CategoryCreate)
| ReqUpdateCategory (category_id : Z) (data : CategoryCreate)
| ReqPartialUpdateCategory (category_id : Z) (data : CategoryUpdate)
| ReqDeleteCategory (category_id : Z)
| ReqCreateProduct (data : ProductCreate)
| ReqUpdateProduct (product_id : Z) (data : ProductCreate)
| ReqPartialUpdateProduct (product_id : Z) (data : ProductUpdate)
| ReqDeleteProduct (product_id : Z).

Definition handler (r : Request) : M unit :=
  match r with
  | ReqCreateCategory d => create_category d ;;; ret tt
  | ReqUpdateCategory i d => update_category i d ;;; ret tt
  | ReqPartialUpdateCategory i d => partial_update_category i d ;;; ret tt
  | ReqDeleteCategory i => delete_category i
  | ReqCreateProduct d => create_product d ;;; ret tt
  | ReqUpdateProduct i d => update_product i d ;;; ret tt
  | ReqPartialUpdateProduct i d => partial_update_product i d ;;; ret tt
  | ReqDeleteProduct i => delete_product i
  end.

Definition dispatch (token : string) (r : Request) : M unit :=
  authenticate_admin_token token ;;; handler r.

(** What the server receives: a call of the public [/login] endpoint, whose
    [uuid4] value is supplied by the environment, or a call of an admin
    endpoint with its bearer token. *)
Inductive Event :=
| EvLogin (uuid4 : string) (data : LoginRequest)
| EvCall (token : string) (r : Request).

Definition step (ev : Event) (st : Store) : Store :=
  match ev with
  | EvLogin uuid4 data => snd (admin_login uuid4 data st)
  | EvCall token r => snd (dispatch token r st)
  end.

(** Serving a sequence of events one at a time; the state after an event
    is kept whether the call succeeded or raised. *)
Fixpoint serve (evs : list Event) (st : Store) : Store :=
  match evs with
  | [] => st
  | ev :: rest => serve rest (step ev st)
  end.

(** ** [src/stock_backend/src/api/utils.py]

    The helper module keeps its own [ADMIN_SESSIONS] dict, distinct from
    the one of [main.py]; its functions are modelled with that dict passed
    explicitly, and its id helpers take the list as an argument. *)
Module Utils.

(** [authenticate_admin_token(token)] of [utils.py] *)
Definition authenticate_admin_token (token : string) (ADMIN_SESSIONS : gmap string string)
  : Result string * gmap string string :=
  match ADMIN_SESSIONS !! token with
  | Some user => (Ok user, ADMIN_SESSIONS)
  | None => (Raise unauthorized_token, ADMIN_SESSIONS)
  end.

(** [generate_admin_token(username)]; [str(uuid.uuid4())] is [uuid4]. *)
Definition generate_admin_token (uuid4 : string) (username : string)
  (ADMIN_SESSIONS : gmap string string) : string * gmap string string :=
  (uuid4, <[uuid4 := username]> ADMIN_SESSIONS).

(** [get_next_category_id(categories)] *)
Definition get_next_category_id (categories : list Category) : Z :=
  py_max_default 0 (cat_id <$> categories) + 1.

(** [get_next_product_id(products)] *)
Definition get_next_product_id (products : list Product) : Z :=
  py_max_default 0 (prod_id <$> products) + 1.

End Utils.

(** * Properties *)

(** Unfolding the monad down to store records. *)
Ltac run_M :=
  unfold bind, ret, raise, get, put, write_category, write_product,
    set_sessions, set_categories, set_products in *; cbn in *.

(** ** Sample runs *)

Example login_then_create_spices :
  let st1 := snd (admin_login "tok-1" (mkLoginRequest "admin" "admin") initial_store) in
  fst (dispatch "tok-1" (ReqCreateCategory (mkCategoryCreate "Spices")) st1) = Ok tt /\
  fst (create_category (mkCategoryCreate "Spices") st1) = Ok (mkCategory 11 "Spices") /\
  fst (dispatch "other" (ReqCreateCategory (mkCategoryCreate "Spices")) st1)
    = Raise unauthorized_token.
Proof. vm_compute. repeat split. Qed.

Example delete_beverages_cascade :
  length (PRODUCTS (snd (delete_category 1 initial_store))) = 47%nat /\
  length (CATEGORIES (snd (delete_category 1 initial_store))) = 9%nat.
Proof. vm_compute. split; reflexivity. Qed.

Example serve_login_then_delete :
  let st := serve [EvLogin "t" (mkLoginRequest "admin" "admin");
                   EvCall "t" (ReqDeleteCategory 1);
                   EvCall "other" (ReqDeleteCategory 2)] initial_store in
  length (CATEGORIES st) = 9%nat /\ length (PRODUCTS st) = 47%nat.
Proof. vm_compute. split; reflexivity. Qed.

(** ** Helper lemmas *)

Lemma fold_left_max_ge (rest : list Z) (x : Z) :
  x <= fold_left Z.max rest x /\ forall y, y ∈ rest -> y <= fold_left Z.max rest x.
Proof.
  revert x. induction rest as [|a rest IH]; intros x; cbn.
  - split; [lia|]. intros y Hy. inversion Hy.
  - destruct (IH (Z.max x a)) as [H1 H2]. split; [lia|].
    intros y Hy. apply elem_of_cons in Hy as [->|Hy]; [lia|]. auto.
Qed.

Lemma fold_left_max_in (rest : list Z) (x : Z) :
  fold_left Z.max rest x ∈ x :: rest.
Proof.
  revert x. induction rest as [|a rest IH]; intros x; cbn.
  - apply elem_of_cons. auto.
  - specialize (IH (Z.max x a)). apply elem_of_cons in IH as [Heq|Hin].
    + rewrite Heq. destruct (Z.max_spec x a) as [[_ ->]|[_ ->]];
        apply elem_of_cons; [right; apply elem_of_cons; auto | auto].
    + apply elem_of_cons. right. apply elem_of_cons. auto.
Qed.

Lemma py_max_default_ge (d : Z) (xs : list Z) (y : Z) :
  y ∈ xs -> y <= py_max_default d xs.
Proof.
  destruct xs as [|x rest]; cbn; intros Hy; [inversion Hy|].
  destruct (fold_left_max_ge rest x) as [H1 H2].
  apply elem_of_cons in Hy as [->|Hy]; auto.
Qed.

Lemma py_max_default_in (d x : Z) (rest : list Z) :
  py_max_default d (x :: rest) ∈ x :: rest.
Proof. apply fold_left_max_in. Qed.

(** A fresh id: one above the maximum is none of the existing ids. *)
Lemma py_max_default_fresh (xs : list Z) :
  py_max_default 0 xs + 1 ∉ xs.
Proof. intros Hin. apply (py_max_default_ge 0) in Hin. lia. Qed.

(** ** C8: the token check is a pure lookup in [ADMIN_SESSIONS] *)

(** C8: for every token, [authenticate_admin_token] returns the user name
    stored for the token exactly when the token is in the session map,
    raises the 401 error exactly when it is absent, and leaves the whole
    store (sessions and both collections) as it was. *)
Theorem authenticate_admin_token_lookup (st : Store) (token : string) :
  snd (authenticate_admin_token token st) = st /\
  (forall u, fst (authenticate_admin_token token st) = Ok u <->
             ADMIN_SESSIONS st !! token = Some u) /\
  (fst (authenticate_admin_token token st) = Raise unauthorized_token <->
   ADMIN_SESSIONS st !! token = None).
Proof.
  unfold authenticate_admin_token. run_M.
  destruct (ADMIN_SESSIONS st !! token) as [v|]; cbn;
    repeat split; intros; congruence.
Qed.

(** ** C5: login issues a token accepted by the token check *)

(** C5: with the configured credentials, [admin_login] returns the token
    it was given by [uuid4] and [authenticate_admin_token] then returns
    the admin user name for it; any other pair raises the 401 error and
    leaves the store, in particular the session map, unchanged. *)
Theorem admin_login_then_authenticate (st : Store) (uuid4 : string) (data : LoginRequest) :
  (username data = ADMIN_USERNAME /\ password data = ADMIN_PASSWORD ->
   fst (admin_login uuid4 data st) = Ok uuid4 /\
   fst (authenticate_admin_token uuid4 (snd (admin_login uuid4 data st)))
     = Ok ADMIN_USERNAME) /\
  (~ (username data = ADMIN_USERNAME /\ password data = ADMIN_PASSWORD) ->
   admin_login uuid4 data st = (Raise unauthorized_login, st)).
Proof.
  unfold admin_login, authenticate_admin_token.
  destruct (String.eqb_spec (username data) ADMIN_USERNAME) as [Hu|Hu];
  destruct (String.eqb_spec (password data) ADMIN_PASSWORD) as [Hp|Hp];
    cbn; split; intros H; try tauto.
  run_M. rewrite lookup_insert_eq, Hu. auto.
Qed.

(** ** C6: creating a category *)

(** C6: [create_category] never raises; it appends and returns a category
    with the given name whose id is one above the largest existing id
    (1 when there is none), and keeps every earlier category, the products
    and the sessions as they were. *)
Theorem create_category_appends_next_id (st : Store) (data : CategoryCreate) :
  exists cat,
    create_category data st = (Ok cat, mkStore (ADMIN_SESSIONS st)
                                             (CATEGORIES st ++ [cat]) (PRODUCTS st)) /\
    cat_name cat = cc_name data /\
    (CATEGORIES st = [] -> cat_id cat = 1) /\
    (CATEGORIES st <> [] ->
       (exists c, c ∈ CATEGORIES st /\ cat_id cat = cat_id c + 1) /\
       (forall c, c ∈ CATEGORIES st -> cat_id c + 1 <= cat_id cat)).
Proof.
  unfold create_category, _get_next_category_id. run_M.
  eexists. split; [reflexivity|]. cbn. split; [reflexivity|]. split.
  - intros ->. reflexivity.
  - intros Hne. split.
    + destruct (CATEGORIES st) as [|c0 rest] eqn:E; [congruence|].
      cbn [fmap list_fmap].
      pose proof (py_max_default_in 0 (cat_id c0) (cat_id <$> rest)) as Hin.
      change (cat_id c0 :: (cat_id <$> rest)) with (cat_id <$> c0 :: rest) in Hin.
      apply list_elem_of_fmap in Hin as (c & Hc & Hin).
      exists c. split; [exact Hin|]. cbn. rewrite <- Hc. reflexivity.
    + intros c Hc. cbn.
      pose proof (py_max_default_ge 0 (cat_id <$> CATEGORIES st) (cat_id c)
                    (list_elem_of_fmap_2 _ _ _ Hc)). lia.
Qed.

(** ** Lookup helpers *)

Lemma category_exists_spec (cid : Z) (cats : list Category) :
  category_exists cid cats = true <-> exists c, c ∈ cats /\ cat_id c = cid.
Proof.
  unfold category_exists. rewrite existsb_exists. split.
  - intros (c & Hin & Heq). exists c. rewrite list_elem_of_In. split; [done|lia].
  - intros (c & Hin & Heq). exists c. rewrite <- list_elem_of_In. split; [done|lia].
Qed.

Lemma category_exists_false (cid : Z) (cats : list Category) :
  (forall c, c ∈ cats -> cat_id c <> cid) -> category_exists cid cats = false.
Proof.
  intros H. destruct (category_exists cid cats) eqn:E; [|done].
  apply category_exists_spec in E as (c & Hin & Heq). exfalso. exact (H c Hin Heq).
Qed.

Lemma find_product_found (pid : Z) (prods : list Product) :
  (exists p, p ∈ prods /\ prod_id p = pid) ->
  exists i old, find_product pid prods = Some (i, old) /\
                prods !! i = Some old /\ prod_id old = pid.
Proof.
  intros (p & Hin & Hid).
  destruct (list_find_elem_of (fun q => prod_id q = pid) prods p Hin Hid) as [[i old] Hf].
  exists i, old. unfold find_product. rewrite Hf.
  apply list_find_Some in Hf as (Hl & Hp & _). auto.
Qed.

Lemma find_product_missing (pid : Z) (prods : list Product) :
  (forall p, p ∈ prods -> prod_id p <> pid) -> find_product pid prods = None.
Proof. intros H. unfold find_product. apply list_find_None, Forall_forall. exact H. Qed.

Lemma find_product_none (pid : Z) (prods : list Product) :
  find_product pid prods = None -> forall p, p ∈ prods -> prod_id p <> pid.
Proof. unfold find_product. rewrite list_find_None, Forall_forall. auto. Qed.

Lemma find_product_some (pid : Z) (prods : list Product) i p :
  find_product pid prods = Some (i, p) -> prods !! i = Some p /\ prod_id p = pid.
Proof. unfold find_product. rewrite list_find_Some. tauto. Qed.

Lemma find_category_found (cid : Z) (cats : list Category) :
  (exists c, c ∈ cats /\ cat_id c = cid) ->
  exists i c, find_category cid cats = Some (i, c) /\
              cats !! i = Some c /\ cat_id c = cid.
Proof.
  intros (c & Hin & Hid).
  destruct (list_find_elem_of (fun q => cat_id q = cid) cats c Hin Hid) as [[i c'] Hf].
  exists i, c'. unfold find_category. rewrite Hf.
  apply list_find_Some in Hf as (Hl & Hp & _). auto.
Qed.

Lemma find_category_missing (cid : Z) (cats : list Category) :
  (forall c, c ∈ cats -> cat_id c <> cid) -> find_category cid cats = None.
Proof. intros H. unfold find_category. apply list_find_None, Forall_forall. exact H. Qed.

Lemma find_category_none (cid : Z) (cats : list Category) :
  find_category cid cats = None -> forall c, c ∈ cats -> cat_id c <> cid.
Proof. unfold find_category. rewrite list_find_None, Forall_forall. auto. Qed.

Lemma find_category_some (cid : Z) (cats : list Category) i c :
  find_category cid cats = Some (i, c) -> cats !! i = Some c /\ cat_id c = cid.
Proof. unfold find_category. rewrite list_find_Some. tauto. Qed.

(** ** C4: creating a product checks the category first *)

(** C4: when no category has the requested [category_id],
    [create_product] raises the 400 error and leaves the store unchanged;
    otherwise it appends and returns the product with the next product id
    (one above the largest existing one, 1 when there is none) and the
    four supplied values. *)
Theorem create_product_checks_category (st : Store) (data : ProductCreate) :
  ((forall c, c ∈ CATEGORIES st -> cat_id c <> pc_category_id data) ->
   create_product data st = (Raise category_does_not_exist, st)) /\
  ((exists c, c ∈ CATEGORIES st /\ cat_id c = pc_category_id data) ->
   let prod := mkProduct (py_max_default 0 (prod_id <$> PRODUCTS st) + 1)
                         (pc_name data) (pc_category_id data)
                         (pc_image_url data) (pc_quantity data) in
   create_product data st
     = (Ok prod, mkStore (ADMIN_SESSIONS st) (CATEGORIES st) (PRODUCTS st ++ [prod]))).
Proof.
  unfold create_product, _get_next_product_id. split.
  - intros H. run_M. rewrite (category_exists_false _ _ H). reflexivity.
  - intros H. apply category_exists_spec in H. run_M. rewrite H. reflexivity.
Qed.

(** ** C3: the full product update *)

Lemma update_product_found (st : Store) (pid : Z) (data : ProductCreate) i old :
  find_product pid (PRODUCTS st) = Some (i, old) ->
  update_product pid data st
    = (Ok (mkProduct (prod_id old) (pc_name data) (pc_category_id data)
                     (pc_image_url data) (pc_quantity data)),
       mkStore (ADMIN_SESSIONS st) (CATEGORIES st)
         (<[i := mkProduct (prod_id old) (pc_name data) (pc_category_id data)
                           (pc_image_url data) (pc_quantity data)]> (PRODUCTS st))).
Proof.
  intros Hf. unfold update_product. run_M. rewrite Hf. run_M.
  rewrite !list_insert_insert_eq. reflexivity.
Qed.

(** C3: for a product id in [PRODUCTS] and any data, whatever its
    [category_id] (existing category or not), [update_product] succeeds,
    replaces name, category_id, image_url and quantity of that product in
    place and returns it; it raises only the 404 error, and only when no
    product has the id. *)
Theorem update_product_replaces_without_check (st : Store) (pid : Z) (data : ProductCreate) :
  ((exists p, p ∈ PRODUCTS st /\ prod_id p = pid) ->
   exists i old,
     PRODUCTS st !! i = Some old /\ prod_id old = pid /\
     let prod := mkProduct pid (pc_name data) (pc_category_id data)
                           (pc_image_url data) (pc_quantity data) in
     update_product pid data st
       = (Ok prod, mkStore (ADMIN_SESSIONS st) (CATEGORIES st) (<[i := prod]> (PRODUCTS st)))) /\
  ((forall p, p ∈ PRODUCTS st -> prod_id p <> pid) ->
   update_product pid data st = (Raise product_not_found, st)) /\
  (forall e, fst (update_product pid data st) = Raise e ->
   e = product_not_found /\ forall p, p ∈ PRODUCTS st -> prod_id p <> pid).
Proof.
  split; [|split].
  - intros H. destruct (find_product_found pid (PRODUCTS st) H) as (i & old & Hf & Hl & Hid).
    exists i, old. split; [done|]. split; [done|]. cbn zeta.
    rewrite (update_product_found st pid data i old Hf), Hid. reflexivity.
  - intros H. unfold update_product. run_M. rewrite (find_product_missing _ _ H). reflexivity.
  - intros e. destruct (find_product pid (PRODUCTS st)) as [[i old]|] eqn:Hf.
    + rewrite (update_product_found st pid data i old Hf). cbn. discriminate.
    + unfold update_product. run_M. rewrite Hf. cbn. intros He; inversion He.
      split; [done|]. apply find_product_none. exact Hf.
Qed.

(** ** C9: partial and full category updates *)

Lemma update_category_found (st : Store) (cid : Z) (data : CategoryCreate) i c :
  find_category cid (CATEGORIES st) = Some (i, c) ->
  update_category cid data st
    = (Ok (mkCategory (cat_id c) (cc_name data)),
       mkStore (ADMIN_SESSIONS st)
         (<[i := mkCategory (cat_id c) (cc_name data)]> (CATEGORIES st)) (PRODUCTS st)).
Proof. intros Hf. unfold update_category. run_M. rewrite Hf. reflexivity. Qed.

Lemma update_category_missing (st : Store) (cid : Z) (data : CategoryCreate) :
  find_category cid (CATEGORIES st) = None ->
  update_category cid data st = (Raise category_not_found, st).
Proof. intros Hf. unfold update_category. run_M. rewrite Hf. reflexivity. Qed.

Lemma partial_update_category_missing (st : Store) (cid : Z) (data : CategoryUpdate) :
  find_category cid (CATEGORIES st) = None ->
  partial_update_category cid data st = (Raise category_not_found, st).
Proof. intros Hf. unfold partial_update_category. run_M. rewrite Hf. reflexivity. Qed.

Lemma partial_update_category_found (st : Store) (cid : Z) (data : CategoryUpdate) i c :
  find_category cid (CATEGORIES st) = Some (i, c) ->
  partial_update_category cid data st
    = match cu_name data with
      | Some n => (Ok (mkCategory (cat_id c) n),
                   mkStore (ADMIN_SESSIONS st)
                     (<[i := mkCategory (cat_id c) n]> (CATEGORIES st)) (PRODUCTS st))
      | None => (Ok c, st)
      end.
Proof.
  intros Hf. unfold partial_update_category. run_M. rewrite Hf.
  destruct (cu_name data); reflexivity.
Qed.

(** C9: with a name, [partial_update_category] gives the same result and
    the same store as [update_category] with that name; without a name, on
    an existing id it returns the (first) category with that id and
    changes nothing. Each of the two signals the 404 error exactly when no
    category has the id: on an existing id it succeeds, its result is the
    404 error iff the id is missing, and on a missing id it raises the 404
    error leaving the store unchanged. *)
Theorem partial_update_category_matches_update (st : Store) (cid : Z) :
  (forall n, partial_update_category cid (mkCategoryUpdate (Some n)) st
             = update_category cid (mkCategoryCreate n) st) /\
  ((exists c, c ∈ CATEGORIES st /\ cat_id c = cid) ->
   exists c, c ∈ CATEGORIES st /\ cat_id c = cid /\
     partial_update_category cid (mkCategoryUpdate None) st = (Ok c, st)) /\
  (forall data,
     (fst (update_category cid data st) = Raise category_not_found <->
      forall c, c ∈ CATEGORIES st -> cat_id c <> cid) /\
     ((exists c, c ∈ CATEGORIES st /\ cat_id c = cid) ->
      exists v, fst (update_category cid data st) = Ok v) /\
     ((forall c, c ∈ CATEGORIES st -> cat_id c <> cid) ->
      update_category cid data st = (Raise category_not_found, st))) /\
  (forall data,
     (fst (partial_update_category cid data st) = Raise category_not_found <->
      forall c, c ∈ CATEGORIES st -> cat_id c <> cid) /\
     ((exists c, c ∈ CATEGORIES st /\ cat_id c = cid) ->
      exists v, fst (partial_update_category cid data st) = Ok v) /\
     ((forall c, c ∈ CATEGORIES st -> cat_id c <> cid) ->
      partial_update_category cid data st = (Raise category_not_found, st))).
Proof.
  split; [|split; [|split]].
  - intros n. destruct (find_category cid (CATEGORIES st)) as [[i c]|] eqn:Hf.
    + rewrite (partial_update_category_found _ _ _ i c Hf),
              (update_category_found _ _ _ i c Hf). reflexivity.
    + rewrite (partial_update_category_missing _ _ _ Hf),
              (update_category_missing _ _ _ Hf). reflexivity.
  - intros H. destruct (find_category_found cid (CATEGORIES st) H) as (i & c & Hf & Hl & Hid).
    exists c. split; [eapply list_elem_of_lookup_2; exact Hl|]. split; [done|].
    rewrite (partial_update_category_found _ _ _ i c Hf). reflexivity.
  - intros data. destruct (find_category cid (CATEGORIES st)) as [[i c]|] eqn:Hf.
    + rewrite (update_category_found _ _ _ i c Hf). cbn [fst].
      apply find_category_some in Hf as [Hl Hid].
      split; [split; [discriminate|]|split].
      * intros H. exfalso. exact (H c (list_elem_of_lookup_2 _ _ _ Hl) Hid).
      * intros _. eexists. reflexivity.
      * intros H. exfalso. exact (H c (list_elem_of_lookup_2 _ _ _ Hl) Hid).
    + rewrite (update_category_missing _ _ _ Hf). cbn [fst].
      pose proof (find_category_none _ _ Hf) as Hn.
      split; [split; [intros _; exact Hn|done]|split; [|done]].
      intros (c & Hin & Hid). exfalso. exact (Hn c Hin Hid).
  - intros data. destruct (find_category cid (CATEGORIES st)) as [[i c]|] eqn:Hf.
    + rewrite (partial_update_category_found _ _ _ i c Hf).
      apply find_category_some in Hf as [Hl Hid].
      split; [split; [destruct (cu_name data); discriminate|]|split].
      * intros H. exfalso. exact (H c (list_elem_of_lookup_2 _ _ _ Hl) Hid).
      * intros _. destruct (cu_name data); eexists; reflexivity.
      * intros H. exfalso. exact (H c (list_elem_of_lookup_2 _ _ _ Hl) Hid).
    + rewrite (partial_update_category_missing _ _ _ Hf). cbn [fst].
      pose proof (find_category_none _ _ Hf) as Hn.
      split; [split; [intros _; exact Hn|done]|split; [|done]].
      intros (c & Hin & Hid). exfalso. exact (Hn c Hin Hid).
Qed.

(** ** C2: deleting a category cascades to its products *)

Lemma delete_category_found (st : Store) (cid : Z) i c :
  find_category cid (CATEGORIES st) = Some (i, c) ->
  delete_category cid st
    = (Ok tt, mkStore (ADMIN_SESSIONS st) (delete i (CATEGORIES st))
                (filter (fun p => prod_category_id p <> cid) (PRODUCTS st))).
Proof. intros Hf. unfold delete_category. run_M. rewrite Hf. reflexivity. Qed.

Lemma delete_category_missing (st : Store) (cid : Z) :
  find_category cid (CATEGORIES st) = None ->
  delete_category cid st = (Raise category_not_found, st).
Proof. intros Hf. unfold delete_category. run_M. rewrite Hf. reflexivity. Qed.

(** C2: when no category has the id, [delete_category] raises the 404
    error and changes nothing; otherwise, in one step, it removes one
    category with that id (the others stay, in order), keeps exactly the
    products of other categories, so that no remaining product refers to
    the id, and leaves the sessions alone. *)
Theorem delete_category_cascades (st : Store) (cid : Z) :
  ((forall c, c ∈ CATEGORIES st -> cat_id c <> cid) ->
   delete_category cid st = (Raise category_not_found, st)) /\
  ((exists c, c ∈ CATEGORIES st /\ cat_id c = cid) ->
   exists l1 c l2,
     CATEGORIES st = l1 ++ c :: l2 /\ cat_id c = cid /\
     let prods := filter (fun p => prod_category_id p <> cid) (PRODUCTS st) in
     delete_category cid st = (Ok tt, mkStore (ADMIN_SESSIONS st) (l1 ++ l2) prods) /\
     filter (fun c' => cat_id c' <> cid) (l1 ++ l2)
       = filter (fun c' => cat_id c' <> cid) (CATEGORIES st) /\
     (forall p, p ∈ prods -> prod_category_id p <> cid)).
Proof.
  split.
  - intros H. apply delete_category_missing, find_category_missing. exact H.
  - intros H. destruct (find_category_found cid (CATEGORIES st) H) as (i & c & Hf & Hl & Hid).
    exists (take i (CATEGORIES st)), c, (drop (S i) (CATEGORIES st)).
    split; [symmetry; apply take_drop_middle; exact Hl|]. split; [done|].
    cbn zeta. split; [|split].
    + rewrite (delete_category_found _ _ i c Hf), delete_take_drop. reflexivity.
    + transitivity (filter (fun c' => cat_id c' <> cid)
                      (take i (CATEGORIES st) ++ c :: drop (S i) (CATEGORIES st))).
      * rewrite !filter_app, filter_cons_False; [reflexivity|]. auto.
      * rewrite take_drop_middle; [reflexivity|exact Hl].
    + intros p Hp. apply list_elem_of_filter in Hp. tauto.
Qed.

(** ** Ids under in-place updates *)

(** The ids of both collections, position by position. *)
Definition ids (st : Store) : list Z * list Z :=
  (cat_id <$> CATEGORIES st, prod_id <$> PRODUCTS st).

Lemma fmap_insert_same_id {A} (f : A -> Z) (l : list A) i old x :
  l !! i = Some old -> f x = f old -> f <$> <[i := x]> l = f <$> l.
Proof.
  intros Hl Hf. rewrite list_fmap_insert, Hf. apply list_insert_id.
  rewrite list_lookup_fmap, Hl. reflexivity.
Qed.

Lemma partial_update_product_found (st : Store) (pid : Z) (data : ProductUpdate) i old :
  find_product pid (PRODUCTS st) = Some (i, old) ->
  exists q, prod_id q = prod_id old /\
    snd (partial_update_product pid data st)
      = mkStore (ADMIN_SESSIONS st) (CATEGORIES st) (<[i := q]> (PRODUCTS st)).
Proof.
  intros Hf. pose proof (find_product_some _ _ _ _ Hf) as [Hl _].
  unfold partial_update_product. run_M. rewrite Hf.
  destruct (pu_name data) as [n|], (pu_category_id data) as [c|]; run_M;
    try match goal with
        | |- context [category_exists ?c ?l] => destruct (category_exists c l)
        | |- context [existsb ?f ?l] => destruct (existsb f l)
        end; run_M;
    destruct (pu_image_url data) as [u|], (pu_quantity data) as [qty|]; run_M;
    first
      [ eexists; split; [|rewrite ?list_insert_insert_eq; reflexivity]; reflexivity
      | exists old; split; [reflexivity|]; rewrite list_insert_id; [destruct st; reflexivity|exact Hl] ].
Qed.

Lemma partial_update_product_missing (st : Store) (pid : Z) (data : ProductUpdate) :
  find_product pid (PRODUCTS st) = None ->
  partial_update_product pid data st = (Raise product_not_found, st).
Proof. intros Hf. unfold partial_update_product. run_M. rewrite Hf. reflexivity. Qed.

Lemma update_category_ids (st : Store) (cid : Z) (data : CategoryCreate) :
  ids (snd (update_category cid data st)) = ids st.
Proof.
  destruct (find_category cid (CATEGORIES st)) as [[i c]|] eqn:Hf.
  - rewrite (update_category_found _ _ _ i c Hf). apply find_category_some in Hf as [Hl _].
    unfold ids; cbn. erewrite fmap_insert_same_id; [reflexivity|exact Hl|reflexivity].
  - rewrite (update_category_missing _ _ _ Hf). reflexivity.
Qed.

Lemma partial_update_category_ids (st : Store) (cid : Z) (data : CategoryUpdate) :
  ids (snd (partial_update_category cid data st)) = ids st.
Proof.
  destruct (find_category cid (CATEGORIES st)) as [[i c]|] eqn:Hf.
  - rewrite (partial_update_category_found _ _ _ i c Hf). apply find_category_some in Hf as [Hl _].
    destruct (cu_name data); [|reflexivity].
    unfold ids; cbn. erewrite fmap_insert_same_id; [reflexivity|exact Hl|reflexivity].
  - rewrite (partial_update_category_missing _ _ _ Hf). reflexivity.
Qed.

Lemma update_product_ids (st : Store) (pid : Z) (data : ProductCreate) :
  ids (snd (update_product pid data st)) = ids st.
Proof.
  destruct (find_product pid (PRODUCTS st)) as [[i old]|] eqn:Hf.
  - rewrite (update_product_found _ _ _ i old Hf). apply find_product_some in Hf as [Hl _].
    unfold ids; cbn. erewrite fmap_insert_same_id; [reflexivity|exact Hl|reflexivity].
  - unfold update_product. run_M. rewrite Hf. reflexivity.
Qed.

Lemma partial_update_product_ids (st : Store) (pid : Z) (data : ProductUpdate) :
  ids (snd (partial_update_product pid data st)) = ids st.
Proof.
  destruct (find_product pid (PRODUCTS st)) as [[i old]|] eqn:Hf.
  - destruct (partial_update_product_found _ _ data _ _ Hf) as (q & Hq & ->).
    apply find_product_some in Hf as [Hl _].
    unfold ids; cbn. erewrite fmap_insert_same_id; [reflexivity|exact Hl|exact Hq].
  - rewrite (partial_update_product_missing _ _ _ Hf). reflexivity.
Qed.

(** ** C10: updates never change an id *)

(** C10: after any call of [update_category], [partial_update_category],
    [update_product] or [partial_update_product], successful or not, the
    categories and the products carry the same ids, position by position,
    as before the call. *)
Theorem updates_preserve_ids (st : Store) :
  (forall cid data, ids (snd (update_category cid data st)) = ids st) /\
  (forall cid data, ids (snd (partial_update_category cid data st)) = ids st) /\
  (forall pid data, ids (snd (update_product pid data st)) = ids st) /\
  (forall pid data, ids (snd (partial_update_product pid data st)) = ids st).
Proof.
  split; [|split; [|split]]; intros.
  - apply update_category_ids.
  - apply partial_update_category_ids.
  - apply update_product_ids.
  - apply partial_update_product_ids.
Qed.

(** ** C1: a rejected [category_id] in a partial product update *)

(** Without a new name, a rejected [category_id] leaves the store as it was:
    the only assignment before the check is the name assignment. *)
Lemma partial_update_product_bad_category_no_name (st : Store) (pid c : Z) (data : ProductUpdate) i old :
  find_product pid (PRODUCTS st) = Some (i, old) ->
  pu_name data = None -> pu_category_id data = Some c ->
  (forall cat, cat ∈ CATEGORIES st -> cat_id cat <> c) ->
  partial_update_product pid data st = (Raise category_does_not_exist, st).
Proof.
  intros Hf Hn Hc Hno. unfold partial_update_product. run_M.
  rewrite Hf, Hn, Hc. run_M. rewrite (category_exists_false _ _ Hno). reflexivity.
Qed.

(** C1 (failing input): product 1 of the seeded store, patched with a new
    name and the unknown category 999.  The call raises the 400 error, but
    the name assignment that precedes the category check has already been
    made on the stored product, which is now named "X". *)
Theorem partial_update_product_bad_category_keeps_name :
  let r := partial_update_product 1 (mkProductUpdate (Some "X") (Some 999) None None)
             initial_store in
  fst r = Raise category_does_not_exist /\
  PRODUCTS initial_store !! 0%nat
    = Some (mkProduct 1 "Apple Juice" 1 "https://via.placeholder.com/150?text=Apple+Juice" 10) /\
  PRODUCTS (snd r) !! 0%nat
    = Some (mkProduct 1 "X" 1 "https://via.placeholder.com/150?text=Apple+Juice" 10) /\
  (forall c, c ∈ CATEGORIES initial_store -> cat_id c <> 999).
Proof.
  cbn zeta. split; [vm_compute; reflexivity|]. split; [vm_compute; reflexivity|].
  split; [vm_compute; reflexivity|].
  intros c Hc. apply (find_category_none 999 (CATEGORIES initial_store)); [vm_compute; reflexivity|exact Hc].
Qed.

(** ** C7: ids stay unique along any sequence of requests *)

Definition ids_unique (st : Store) : Prop :=
  NoDup (cat_id <$> CATEGORIES st) /\ NoDup (prod_id <$> PRODUCTS st).

Lemma sublist_fmap_ids {A} (f : A -> Z) (l1 l2 : list A) :
  l1 `sublist_of` l2 -> f <$> l1 `sublist_of` f <$> l2.
Proof. induction 1; cbn; constructor; assumption. Qed.

Lemma NoDup_fmap_delete {A} (f : A -> Z) (l : list A) i :
  NoDup (f <$> l) -> NoDup (f <$> delete i l).
Proof. intros H. eapply sublist_NoDup; [exact H|]. apply sublist_fmap_ids, sublist_delete. Qed.

Lemma NoDup_fmap_filter {A} (f : A -> Z) (P : A -> Prop) `{!forall x, Decision (P x)} (l : list A) :
  NoDup (f <$> l) -> NoDup (f <$> filter P l).
Proof. intros Hnd. eapply sublist_NoDup; [exact Hnd|]. apply sublist_fmap_ids, sublist_filter. Qed.

Lemma NoDup_fmap_snoc_fresh {A} (f : A -> Z) (l : list A) x :
  NoDup (f <$> l) -> f x ∉ f <$> l -> NoDup (f <$> l ++ [x]).
Proof.
  intros Hl Hx. rewrite fmap_app. cbn. apply NoDup_app. split; [exact Hl|]. split.
  - intros y Hy Hy'. apply list_elem_of_singleton in Hy'. subst y. exact (Hx Hy).
  - apply NoDup_singleton.
Qed.

Lemma ids_unique_same_ids (st st' : Store) :
  ids st' = ids st -> ids_unique st -> ids_unique st'.
Proof. unfold ids, ids_unique. intros Heq. injection Heq as -> ->. auto. Qed.

Lemma snd_bind_ret_tt {A} (m : M A) (st : Store) :
  snd ((m ;;; ret tt) st) = snd (m st).
Proof. unfold bind, ret. destruct (m st) as [[a|e] st']; reflexivity. Qed.

Lemma create_category_unique (st : Store) (data : CategoryCreate) :
  ids_unique st -> ids_unique (snd (create_category data st)).
Proof.
  intros [Hc Hp]. unfold create_category, _get_next_category_id. run_M.
  split; [|exact Hp]. apply NoDup_fmap_snoc_fresh; [exact Hc|]. cbn.
  apply py_max_default_fresh.
Qed.

Lemma delete_category_unique (st : Store) (cid : Z) :
  ids_unique st -> ids_unique (snd (delete_category cid st)).
Proof.
  intros [Hc Hp]. destruct (find_category cid (CATEGORIES st)) as [[i c]|] eqn:Hf.
  - rewrite (delete_category_found _ _ i c Hf). cbn. split.
    + apply NoDup_fmap_delete. exact Hc.
    + apply NoDup_fmap_filter. exact Hp.
  - rewrite (delete_category_missing _ _ Hf). split; assumption.
Qed.

Lemma create_product_unique (st : Store) (data : ProductCreate) :
  ids_unique st -> ids_unique (snd (create_product data st)).
Proof.
  intros [Hc Hp]. unfold create_product, _get_next_product_id. run_M.
  match goal with
  | |- context [category_exists ?c ?l] => destruct (category_exists c l)
  | |- context [existsb ?f ?l] => destruct (existsb f l)
  end; cbn; split; try assumption.
  apply NoDup_fmap_snoc_fresh; [exact Hp|]. cbn. apply py_max_default_fresh.
Qed.

Lemma delete_product_unique (st : Store) (pid : Z) :
  ids_unique st -> ids_unique (snd (delete_product pid st)).
Proof.
  intros [Hc Hp]. unfold delete_product. run_M.
  destruct (find_product pid (PRODUCTS st)) as [[i p]|]; cbn; split; try assumption.
  apply NoDup_fmap_delete. exact Hp.
Qed.

Lemma handler_unique (st : Store) (r : Request) :
  ids_unique st -> ids_unique (snd (handler r st)).
Proof.
  intros H. destruct r; cbn [handler]; rewrite ?snd_bind_ret_tt.
  - apply create_category_unique; exact H.
  - eapply ids_unique_same_ids; [apply update_category_ids|exact H].
  - eapply ids_unique_same_ids; [apply partial_update_category_ids|exact H].
  - apply delete_category_unique; exact H.
  - apply create_product_unique; exact H.
  - eapply ids_unique_same_ids; [apply update_product_ids|exact H].
  - eapply ids_unique_same_ids; [apply partial_update_product_ids|exact H].
  - apply delete_product_unique; exact H.
Qed.

Lemma dispatch_unique (st : Store) (token : string) (r : Request) :
  ids_unique st -> ids_unique (snd (dispatch token r st)).
Proof.
  intros H. unfold dispatch, authenticate_admin_token. run_M.
  destruct (ADMIN_SESSIONS st !! token); cbn; [apply handler_unique|]; exact H.
Qed.

Lemma admin_login_catalog (st : Store) (uuid4 : string) (data : LoginRequest) :
  CATEGORIES (snd (admin_login uuid4 data st)) = CATEGORIES st /\
  PRODUCTS (snd (admin_login uuid4 data st)) = PRODUCTS st.
Proof.
  unfold admin_login.
  destruct (String.eqb (username data) ADMIN_USERNAME && String.eqb (password data) ADMIN_PASSWORD);
    run_M; auto.
Qed.

Lemma serve_unique (evs : list Event) (st : Store) :
  ids_unique st -> ids_unique (serve evs st).
Proof.
  revert st. induction evs as [|[uuid4 data|tok r] rest IH]; intros st H; cbn; [exact H| |].
  - apply IH. unfold ids_unique. destruct (admin_login_catalog st uuid4 data) as [-> ->]. exact H.
  - apply IH, dispatch_unique, H.
Qed.

Lemma initial_store_unique : ids_unique initial_store.
Proof.
  split.
  - apply (bool_decide_unpack (NoDup (cat_id <$> INITIAL_CATEGORIES))).
    vm_compute. exact I.
  - apply (bool_decide_unpack (NoDup (prod_id <$> INITIAL_PRODUCTS))).
    vm_compute. exact I.
Qed.

(** C7: from the seeded store, after any sequence of logins and admin
    requests (category and product creates, full and partial updates,
    deletes, each behind the token check, each kept whether it succeeded
    or raised), no two categories share an id and no two products share
    an id. *)
Theorem serve_keeps_ids_unique (evs : list Event) :
  NoDup (cat_id <$> CATEGORIES (serve evs initial_store)) /\
  NoDup (prod_id <$> PRODUCTS (serve evs initial_store)).
Proof. apply serve_unique, initial_store_unique. Qed.

(** * Further properties of the catalog handlers *)

(** ** [delete_product] *)

Lemma find_product_first (pid : Z) (prods : list Product) i p :
  find_product pid prods = Some (i, p) ->
  forall q, q ∈ take i prods -> prod_id q <> pid.
Proof.
  unfold find_product. intros Hf q Hq. apply list_find_Some in Hf as (_ & _ & Hfirst).
  apply list_elem_of_lookup in Hq as [j Hj]. apply lookup_take_Some in Hj as [Hj Hlt].
  exact (Hfirst j q Hj Hlt).
Qed.

Lemma delete_product_found (st : Store) (pid : Z) i p :
  find_product pid (PRODUCTS st) = Some (i, p) ->
  delete_product pid st = (Ok tt, mkStore (ADMIN_SESSIONS st) (CATEGORIES st) (delete i (PRODUCTS st))).
Proof. intros Hf. unfold delete_product. run_M. rewrite Hf. reflexivity. Qed.

(** [delete_product] raises the 404 error and changes nothing when no
    product has the id; otherwise it removes the first product with that
    id, keeps all other products in order, and leaves the categories and
    the sessions untouched (no cascade). *)
Theorem delete_product_removes_first (st : Store) (pid : Z) :
  ((forall p, p ∈ PRODUCTS st -> prod_id p <> pid) ->
   delete_product pid st = (Raise product_not_found, st)) /\
  ((exists p, p ∈ PRODUCTS st /\ prod_id p = pid) ->
   exists l1 p l2,
     PRODUCTS st = l1 ++ p :: l2 /\ prod_id p = pid /\
     (forall q, q ∈ l1 -> prod_id q <> pid) /\
     delete_product pid st = (Ok tt, mkStore (ADMIN_SESSIONS st) (CATEGORIES st) (l1 ++ l2))).
Proof.
  split.
  - intros H. unfold delete_product. run_M. rewrite (find_product_missing _ _ H). reflexivity.
  - intros H. destruct (find_product_found pid (PRODUCTS st) H) as (i & p & Hf & Hl & Hid).
    exists (take i (PRODUCTS st)), p, (drop (S i) (PRODUCTS st)).
    split; [symmetry; apply take_drop_middle; exact Hl|]. split; [done|].
    split; [exact (find_product_first _ _ _ _ Hf)|].
    unfold delete_product. run_M. rewrite Hf. cbn. rewrite delete_take_drop. reflexivity.
Qed.

(** ** Repeating a full category update *)

Lemma find_category_insert_same (cid : Z) (cats : list Category) i c c' :
  find_category cid cats = Some (i, c) -> cat_id c' = cat_id c ->
  find_category cid (<[i := c']> cats) = Some (i, c').
Proof.
  unfold find_category. rewrite !list_find_Some. intros (Hl & Hp & Hfirst) Hid.
  split; [|split].
  - apply list_lookup_insert_eq. eapply lookup_lt_Some. exact Hl.
  - rewrite Hid. exact Hp.
  - intros j y Hj Hlt. rewrite list_lookup_insert_ne in Hj; [|lia]. exact (Hfirst j y Hj Hlt).
Qed.

(** Calling [update_category] a second time with the same id and data
    returns the same result as the first call and leaves the store it
    produced unchanged. *)
Theorem update_category_idempotent (st : Store) (cid : Z) (data : CategoryCreate) :
  update_category cid data (snd (update_category cid data st))
    = (fst (update_category cid data st), snd (update_category cid data st)).
Proof.
  destruct (find_category cid (CATEGORIES st)) as [[i c]|] eqn:Hf.
  - rewrite (update_category_found _ _ _ i c Hf). cbn [fst snd].
    pose proof (find_category_insert_same cid (CATEGORIES st) i c
                  (mkCategory (cat_id c) (cc_name data)) Hf eq_refl) as Hf'.
    rewrite (update_category_found
               (mkStore (ADMIN_SESSIONS st)
                  (<[i := mkCategory (cat_id c) (cc_name data)]> (CATEGORIES st)) (PRODUCTS st))
               cid data i _ Hf'). cbn.
    rewrite list_insert_insert_eq. reflexivity.
  - rewrite (update_category_missing _ _ _ Hf). cbn [fst snd].
    rewrite (update_category_missing _ _ _ Hf). reflexivity.
Qed.

(** ** Creating then deleting *)

Lemma delete_snoc {A} (l : list A) (x : A) : delete (length l) (l ++ [x]) = l.
Proof.
  induction l as [|a l IH]; [reflexivity|]. cbn [length app].
  change (delete (S (length l)) (a :: l ++ [x])) with (a :: delete (length l) (l ++ [x])).
  rewrite IH. reflexivity.
Qed.

Lemma find_category_snoc_fresh (cats : list Category) (c : Category) :
  cat_id c ∉ cat_id <$> cats ->
  find_category (cat_id c) (cats ++ [c]) = Some (length cats, c).
Proof.
  intros Hfresh. unfold find_category. rewrite list_find_app_r.
  - cbn. rewrite decide_True by reflexivity. reflexivity.
  - apply list_find_None, Forall_forall. intros x Hx Heq. apply Hfresh.
    rewrite <- Heq. apply list_elem_of_fmap_2. exact Hx.
Qed.

Lemma find_product_snoc_fresh (prods : list Product) (p : Product) :
  prod_id p ∉ prod_id <$> prods ->
  find_product (prod_id p) (prods ++ [p]) = Some (length prods, p).
Proof.
  intros Hfresh. unfold find_product. rewrite list_find_app_r.
  - cbn. rewrite decide_True by reflexivity. reflexivity.
  - apply list_find_None, Forall_forall. intros x Hx Heq. apply Hfresh.
    rewrite <- Heq. apply list_elem_of_fmap_2. exact Hx.
Qed.

(** Deleting the category just created by [create_category] gives back the
    categories as they were before the create; the cascade removes the
    products whose [category_id] happens to be the new id (which only a
    full product update, which does not check categories, can produce). *)
Theorem create_then_delete_category (st : Store) (data : CategoryCreate) :
  exists cat,
    fst (create_category data st) = Ok cat /\
    delete_category (cat_id cat) (snd (create_category data st))
      = (Ok tt, mkStore (ADMIN_SESSIONS st) (CATEGORIES st)
                  (filter (fun p => prod_category_id p <> cat_id cat) (PRODUCTS st))).
Proof.
  set (c := mkCategory (py_max_default 0 (cat_id <$> CATEGORIES st) + 1) (cc_name data)).
  assert (Hc : create_category data st
               = (Ok c, mkStore (ADMIN_SESSIONS st) (CATEGORIES st ++ [c]) (PRODUCTS st)))
    by (unfold create_category, _get_next_category_id; run_M; reflexivity).
  exists c. rewrite Hc. cbn [fst snd]. split; [reflexivity|].
  rewrite (delete_category_found _ _ (length (CATEGORIES st)) c).
  - cbn. rewrite delete_snoc. reflexivity.
  - apply find_category_snoc_fresh. apply py_max_default_fresh.
Qed.

(** When the category exists, deleting the product just created by
    [create_product] restores the store exactly. *)
Theorem create_then_delete_product (st : Store) (data : ProductCreate) :
  (exists c, c ∈ CATEGORIES st /\ cat_id c = pc_category_id data) ->
  exists p,
    fst (create_product data st) = Ok p /\
    delete_product (prod_id p) (snd (create_product data st)) = (Ok tt, st).
Proof.
  intros H. apply category_exists_spec in H.
  set (p := mkProduct (py_max_default 0 (prod_id <$> PRODUCTS st) + 1)
                      (pc_name data) (pc_category_id data) (pc_image_url data) (pc_quantity data)).
  assert (Hp : create_product data st
               = (Ok p, mkStore (ADMIN_SESSIONS st) (CATEGORIES st) (PRODUCTS st ++ [p])))
    by (unfold create_product, _get_next_product_id; run_M; rewrite H; reflexivity).
  exists p. rewrite Hp. cbn [fst snd]. split; [reflexivity|].
  rewrite (delete_product_found _ _ (length (PRODUCTS st)) p).
  - cbn. rewrite delete_snoc. destruct st. reflexivity.
  - apply find_product_snoc_fresh. apply py_max_default_fresh.
Qed.

Lemma create_then_delete_product_witness :
  exists p,
    fst (create_product (mkProductCreate "Tea" 1 "u" 5) initial_store) = Ok p /\
    delete_product (prod_id p) (snd (create_product (mkProductCreate "Tea" 1 "u" 5) initial_store))
      = (Ok tt, initial_store).
Proof.
  apply create_then_delete_product.
  exists (mkCategory 1 "Beverages"). split; [|reflexivity].
  apply (list_elem_of_lookup_2 _ 0%nat). reflexivity.
Defined.

(** ** [partial_update_product] when every supplied value is accepted *)

(** For an existing product id, when the supplied [category_id] (if any)
    is the id of a category, [partial_update_product] succeeds: it
    replaces exactly the supplied fields of the first product with that
    id (no product before its index has the id), keeps the others, stores
    the result in place and returns it. *)
Theorem partial_update_product_applies_supplied (st : Store) (pid : Z) (data : ProductUpdate) :
  (exists p, p ∈ PRODUCTS st /\ prod_id p = pid) ->
  (forall c, pu_category_id data = Some c -> exists cat, cat ∈ CATEGORIES st /\ cat_id cat = c) ->
  exists i old,
    PRODUCTS st !! i = Some old /\ prod_id old = pid /\
    (forall j q, (j < i)%nat -> PRODUCTS st !! j = Some q -> prod_id q <> pid) /\
    let new := mkProduct pid (default (prod_name old) (pu_name data))
                 (default (prod_category_id old) (pu_category_id data))
                 (default (prod_image_url old) (pu_image_url data))
                 (default (prod_quantity old) (pu_quantity data)) in
    partial_update_product pid data st
      = (Ok new, mkStore (ADMIN_SESSIONS st) (CATEGORIES st) (<[i := new]> (PRODUCTS st))).
Proof.
  intros Hp Hc. destruct (find_product_found pid (PRODUCTS st) Hp) as (i & old & Hf & Hl & Hid).
  exists i, old. split; [done|]. split; [done|].
  split; [unfold find_product in Hf; apply list_find_Some in Hf as (_ & _ & Hfirst);
          intros j q Hj Hq; exact (Hfirst j q Hq Hj)|].
  cbn zeta. subst pid.
  unfold partial_update_product. run_M. rewrite Hf.
  destruct (pu_category_id data) as [c|] eqn:Ec.
  - specialize (Hc c eq_refl). apply category_exists_spec in Hc.
    assert (Hc' : existsb (fun cat => cat_id cat =? c) (CATEGORIES st) = true) by exact Hc.
    destruct (pu_name data) as [n|], (pu_image_url data) as [u|], (pu_quantity data) as [q|];
      run_M; rewrite ?Hc, ?Hc'; run_M; rewrite ?list_insert_insert_eq; reflexivity.
  - destruct (pu_name data) as [n|], (pu_image_url data) as [u|], (pu_quantity data) as [q|];
      run_M; rewrite ?list_insert_insert_eq; try reflexivity.
    rewrite list_insert_id; [|destruct old; exact Hl]. destruct st, old. reflexivity.
Qed.

Lemma partial_update_product_applies_supplied_witness :
  exists i old,
    PRODUCTS initial_store !! i = Some old /\ prod_id old = 2 /\
    (forall j q, (j < i)%nat -> PRODUCTS initial_store !! j = Some q -> prod_id q <> 2) /\
    let data := mkProductUpdate None (Some 3) None (Some 0) in
    let new := mkProduct 2 (default (prod_name old) (pu_name data))
                 (default (prod_category_id old) (pu_category_id data))
                 (default (prod_image_url old) (pu_image_url data))
                 (default (prod_quantity old) (pu_quantity data)) in
    partial_update_product 2 data initial_store
      = (Ok new, mkStore (ADMIN_SESSIONS initial_store) (CATEGORIES initial_store)
                   (<[i := new]> (PRODUCTS initial_store))).
Proof.
  apply partial_update_product_applies_supplied.
  - exists (mkProduct 2 "Orange Soda" 1 "https://via.placeholder.com/150?text=Orange+Soda" 30).
    split; [|reflexivity]. apply (list_elem_of_lookup_2 _ 1%nat). reflexivity.
  - intros c Hc. injection Hc as <-. exists (mkCategory 3 "Meat"). split; [|reflexivity].
    apply (list_elem_of_lookup_2 _ 2%nat). reflexivity.
Defined.

(** ** The token gate in front of every admin endpoint *)

(** A request whose bearer token is not in the session map is refused
    with the 401 error before its handler runs: the store is unchanged. *)
Theorem dispatch_rejects_unknown_token (st : Store) (token : string) (r : Request) :
  ADMIN_SESSIONS st !! token = None ->
  dispatch token r st = (Raise unauthorized_token, st).
Proof. intros H. unfold dispatch, authenticate_admin_token. run_M. rewrite H. reflexivity. Qed.

Lemma dispatch_rejects_unknown_token_witness :
  dispatch "no-such-token" (ReqDeleteCategory 1) initial_store
    = (Raise unauthorized_token, initial_store).
Proof. apply dispatch_rejects_unknown_token. reflexivity. Defined.

(** ** Sessions are only ever added *)

Lemma handler_sessions (st : Store) (r : Request) :
  ADMIN_SESSIONS (snd (handler r st)) = ADMIN_SESSIONS st.
Proof.
  destruct r as [d|cid d|cid d|cid|d|pid d|pid d|pid]; cbn [handler]; rewrite ?snd_bind_ret_tt.
  - unfold create_category, _get_next_category_id. run_M. reflexivity.
  - destruct (find_category cid (CATEGORIES st)) as [[i c]|] eqn:Hf;
      [rewrite (update_category_found _ _ _ i c Hf) | rewrite (update_category_missing _ _ _ Hf)];
      reflexivity.
  - destruct (find_category cid (CATEGORIES st)) as [[i c]|] eqn:Hf;
      [rewrite (partial_update_category_found _ _ _ i c Hf); destruct (cu_name d)
      | rewrite (partial_update_category_missing _ _ _ Hf)]; reflexivity.
  - destruct (find_category cid (CATEGORIES st)) as [[i c]|] eqn:Hf;
      [rewrite (delete_category_found _ _ i c Hf) | rewrite (delete_category_missing _ _ Hf)];
      reflexivity.
  - unfold create_product, _get_next_product_id. run_M.
    match goal with
    | |- context [category_exists ?c ?l] => destruct (category_exists c l)
    | |- context [existsb ?f ?l] => destruct (existsb f l)
    end; reflexivity.
  - destruct (find_product pid (PRODUCTS st)) as [[i p]|] eqn:Hf.
    + rewrite (update_product_found _ _ _ i p Hf). reflexivity.
    + unfold update_product. run_M. rewrite Hf. reflexivity.
  - destruct (find_product pid (PRODUCTS st)) as [[i p]|] eqn:Hf.
    + destruct (partial_update_product_found _ _ d _ _ Hf) as (q & _ & ->). reflexivity.
    + rewrite (partial_update_product_missing _ _ _ Hf). reflexivity.
  - destruct (find_product pid (PRODUCTS st)) as [[i p]|] eqn:Hf.
    + rewrite (delete_product_found _ _ i p Hf). reflexivity.
    + unfold delete_product. run_M. rewrite Hf. reflexivity.
Qed.

(** No admin request, accepted or refused, adds, removes or changes a
    session: the session map after the call is the one before. *)
Theorem dispatch_keeps_sessions (st : Store) (token : string) (r : Request) :
  ADMIN_SESSIONS (snd (dispatch token r st)) = ADMIN_SESSIONS st.
Proof.
  unfold dispatch, authenticate_admin_token. run_M.
  destruct (ADMIN_SESSIONS st !! token); cbn; [apply handler_sessions|reflexivity].
Qed.

Lemma step_keeps_token (ev : Event) (st : Store) (t : string) :
  is_Some (ADMIN_SESSIONS st !! t) -> is_Some (ADMIN_SESSIONS (step ev st) !! t).
Proof.
  intros H. destruct ev as [uuid4 data|tok r]; cbn [step].
  - unfold admin_login.
    destruct (String.eqb (username data) ADMIN_USERNAME && String.eqb (password data) ADMIN_PASSWORD);
      run_M; [|exact H].
    destruct (String.eqb_spec uuid4 t) as [->|Hne].
    + rewrite lookup_insert_eq. eexists. reflexivity.
    + rewrite lookup_insert_ne by exact Hne. exact H.
  - rewrite dispatch_keeps_sessions. exact H.
Qed.

(** Sessions are never revoked: a token accepted before a sequence of
    logins and admin requests is still in the session map after it. *)
Theorem serve_never_revokes (evs : list Event) (st : Store) (t : string) :
  is_Some (ADMIN_SESSIONS st !! t) -> is_Some (ADMIN_SESSIONS (serve evs st) !! t).
Proof.
  revert st. induction evs as [|ev rest IH]; intros st H; cbn; [exact H|].
  apply IH, step_keeps_token, H.
Qed.

Lemma serve_never_revokes_witness :
  is_Some (ADMIN_SESSIONS
             (serve [EvLogin "tok-2" (mkLoginRequest "admin" "x");
                     EvCall "tok-1" (ReqDeleteCategory 1)]
                (snd (admin_login "tok-1" (mkLoginRequest "admin" "admin") initial_store)))
           !! "tok-1").
Proof. apply serve_never_revokes. eexists. reflexivity. Defined.

(** A login, successful or not, keeps the session of every token other
    than the newly generated one, and leaves the catalog unchanged. *)
Theorem admin_login_keeps_other_sessions (st : Store) (uuid4 : string) (data : LoginRequest) (t : string) :
  t <> uuid4 ->
  ADMIN_SESSIONS (snd (admin_login uuid4 data st)) !! t = ADMIN_SESSIONS st !! t /\
  CATEGORIES (snd (admin_login uuid4 data st)) = CATEGORIES st /\
  PRODUCTS (snd (admin_login uuid4 data st)) = PRODUCTS st.
Proof.
  intros Hne. unfold admin_login.
  destruct (String.eqb (username data) ADMIN_USERNAME && String.eqb (password data) ADMIN_PASSWORD);
    run_M; [rewrite lookup_insert_ne by congruence|]; auto.
Qed.

Lemma admin_login_keeps_other_sessions_witness :
  let st1 := snd (admin_login "tok-1" (mkLoginRequest "admin" "admin") initial_store) in
  ADMIN_SESSIONS (snd (admin_login "tok-2" (mkLoginRequest "admin" "admin") st1)) !! "tok-1"
    = ADMIN_SESSIONS st1 !! "tok-1" /\
  CATEGORIES (snd (admin_login "tok-2" (mkLoginRequest "admin" "admin") st1)) = CATEGORIES st1 /\
  PRODUCTS (snd (admin_login "tok-2" (mkLoginRequest "admin" "admin") st1)) = PRODUCTS st1.
Proof. apply admin_login_keeps_other_sessions. discriminate. Defined.

(** ** The helpers of [utils.py] *)

(** [utils.generate_admin_token] followed by [utils.authenticate_admin_token]
    on the returned token gives back the user name; every other token is
    answered as before the call. *)
Theorem utils_generate_then_authenticate (sessions : gmap string string) (uuid4 user : string) :
  fst (Utils.authenticate_admin_token (fst (Utils.generate_admin_token uuid4 user sessions))
         (snd (Utils.generate_admin_token uuid4 user sessions))) = Ok user /\
  (forall t, t <> uuid4 ->
   fst (Utils.authenticate_admin_token t (snd (Utils.generate_admin_token uuid4 user sessions)))
     = fst (Utils.authenticate_admin_token t sessions)).
Proof.
  unfold Utils.authenticate_admin_token, Utils.generate_admin_token. cbn. split.
  - rewrite lookup_insert_eq. reflexivity.
  - intros t Hne. rewrite lookup_insert_ne by congruence. destruct (sessions !! t); reflexivity.
Qed.

(** [utils.get_next_category_id] and [utils.get_next_product_id] return 1
    for an empty list and otherwise a value above every id in the list,
    so the new id is never one already in use. *)
Theorem utils_next_ids_above_all (cats : list Category) (prods : list Product) :
  (cats = [] -> Utils.get_next_category_id cats = 1) /\
  (forall c, c ∈ cats -> cat_id c < Utils.get_next_category_id cats) /\
  (prods = [] -> Utils.get_next_product_id prods = 1) /\
  (forall p, p ∈ prods -> prod_id p < Utils.get_next_product_id prods).
Proof.
  unfold Utils.get_next_category_id, Utils.get_next_product_id.
  split; [intros ->; reflexivity|]. split.
  { intros c Hc. pose proof (py_max_default_ge 0 _ _ (list_elem_of_fmap_2 cat_id _ _ Hc)). lia. }
  split; [intros ->; reflexivity|].
  intros p Hp. pose proof (py_max_default_ge 0 _ _ (list_elem_of_fmap_2 prod_id _ _ Hp)). lia.
Qed.

(** ** Referential integrity outside full product updates *)

(** Every product refers to an existing category. *)
Definition refs_ok (st : Store) : Prop :=
  forall p, p ∈ PRODUCTS st -> category_exists (prod_category_id p) (CATEGORIES st) = true.

Definition is_full_product_update (r : Request) : bool :=
  match r with
  | ReqUpdateProduct _ _ => true
  | _ => false
  end.

Lemma category_exists_same_ids (cid : Z) (cats cats' : list Category) :
  cat_id <$> cats' = cat_id <$> cats ->
  category_exists cid cats' = category_exists cid cats.
Proof.
  intros Heq. apply Bool.eq_iff_eq_true. rewrite !category_exists_spec.
  assert (Hiff : forall l : list Category,
            (exists c, c ∈ l /\ cat_id c = cid) <-> cid ∈ cat_id <$> l).
  { intros l. rewrite list_elem_of_fmap. split.
    - intros (c & Hc & Hid). exists c. auto.
    - intros (c & Hid & Hc). exists c. auto. }
  rewrite !Hiff, Heq. reflexivity.
Qed.

Lemma list_elem_of_delete_other {A} (l : list A) i c x :
  l !! i = Some c -> x ∈ l -> x <> c -> x ∈ delete i l.
Proof.
  intros Hl Hx Hne. rewrite <- (take_drop_middle l i c Hl) in Hx.
  rewrite delete_take_drop. apply elem_of_app in Hx as [Hx|Hx]; apply elem_of_app; [auto|].
  apply elem_of_cons in Hx as [->|Hx]; [congruence|auto].
Qed.

Lemma list_elem_of_insert_inv {A} (l : list A) i q x :
  x ∈ <[i := q]> l -> x = q \/ x ∈ l.
Proof.
  intros Hx. apply list_elem_of_lookup in Hx as [j Hj].
  apply list_lookup_insert_Some in Hj as [(_ & -> & _)|(_ & Hj)]; [auto|].
  right. eapply list_elem_of_lookup_2. exact Hj.
Qed.

Lemma partial_update_product_found_cat (st : Store) (pid : Z) (data : ProductUpdate) i old :
  find_product pid (PRODUCTS st) = Some (i, old) ->
  exists q, (prod_category_id q = prod_category_id old \/
             category_exists (prod_category_id q) (CATEGORIES st) = true) /\
    snd (partial_update_product pid data st)
      = mkStore (ADMIN_SESSIONS st) (CATEGORIES st) (<[i := q]> (PRODUCTS st)).
Proof.
  intros Hf. pose proof (find_product_some _ _ _ _ Hf) as [Hl _].
  unfold partial_update_product. run_M. rewrite Hf.
  destruct (pu_name data) as [n|], (pu_category_id data) as [c|]; run_M;
    try match goal with
        | |- context [category_exists ?c ?l] => destruct (category_exists c l) eqn:Ex
        | |- context [existsb ?f ?l] => destruct (existsb f l) eqn:Ex
        end; run_M;
    destruct (pu_image_url data) as [u|], (pu_quantity data) as [qty|]; run_M;
    first
      [ eexists; split; [|rewrite ?list_insert_insert_eq; reflexivity];
        first [left; reflexivity | right; exact Ex]
      | exists old; split; [left; reflexivity|];
        rewrite list_insert_id; [destruct st; reflexivity|exact Hl] ].
Qed.

Lemma handler_refs_ok (st : Store) (r : Request) :
  is_full_product_update r = false -> refs_ok st -> refs_ok (snd (handler r st)).
Proof.
  intros Hr H. destruct r as [d|cid d|cid d|cid|d|pid d|pid d|pid];
    cbn [handler] in *; rewrite ?snd_bind_ret_tt; try discriminate.
  - unfold create_category, _get_next_category_id. run_M. intros p Hp. cbn [CATEGORIES PRODUCTS ADMIN_SESSIONS] in *.
    specialize (H p Hp). unfold category_exists in *. rewrite existsb_app, H. reflexivity.
  - destruct (find_category cid (CATEGORIES st)) as [[i c]|] eqn:Hf;
      [rewrite (update_category_found _ _ _ i c Hf) | rewrite (update_category_missing _ _ _ Hf)];
      [|exact H].
    apply find_category_some in Hf as [Hl _]. intros p Hp. cbn [CATEGORIES PRODUCTS ADMIN_SESSIONS] in *.
    erewrite category_exists_same_ids; [exact (H p Hp)|].
    eapply fmap_insert_same_id; [exact Hl|reflexivity].
  - destruct (find_category cid (CATEGORIES st)) as [[i c]|] eqn:Hf;
      [rewrite (partial_update_category_found _ _ _ i c Hf) | rewrite (partial_update_category_missing _ _ _ Hf)];
      [|exact H].
    destruct (cu_name d); [|exact H].
    apply find_category_some in Hf as [Hl _]. intros p Hp. cbn [CATEGORIES PRODUCTS ADMIN_SESSIONS] in *.
    erewrite category_exists_same_ids; [exact (H p Hp)|].
    eapply fmap_insert_same_id; [exact Hl|reflexivity].
  - destruct (find_category cid (CATEGORIES st)) as [[i c]|] eqn:Hf;
      [rewrite (delete_category_found _ _ i c Hf) | rewrite (delete_category_missing _ _ Hf)];
      [|exact H].
    apply find_category_some in Hf as [Hl Hid]. intros p Hp. cbn [CATEGORIES PRODUCTS ADMIN_SESSIONS] in *.
    apply list_elem_of_filter in Hp as [Hne Hp].
    pose proof (H p Hp) as Hcp. apply category_exists_spec in Hcp as (c' & Hc' & Hid').
    apply category_exists_spec. exists c'. split; [|exact Hid'].
    apply (list_elem_of_delete_other _ _ c); [exact Hl|exact Hc'|congruence].
  - unfold create_product, _get_next_product_id. run_M.
    match goal with
    | |- context [category_exists ?c ?l] => destruct (category_exists c l) eqn:Ex
    | |- context [existsb ?f ?l] => destruct (existsb f l) eqn:Ex
    end; cbn [negb]; [|exact H].
    intros p Hp. cbn [CATEGORIES PRODUCTS ADMIN_SESSIONS] in *. apply elem_of_app in Hp as [Hp|Hp]; [exact (H p Hp)|].
    apply list_elem_of_singleton in Hp as ->. exact Ex.
  - destruct (find_product pid (PRODUCTS st)) as [[i old]|] eqn:Hf.
    + destruct (partial_update_product_found_cat _ _ d _ _ Hf) as (q & Hq & ->).
      apply find_product_some in Hf as [Hl _].
      intros p Hp. cbn [CATEGORIES PRODUCTS ADMIN_SESSIONS] in *. apply list_elem_of_insert_inv in Hp as [->|Hp]; [|exact (H p Hp)].
      destruct Hq as [Hq|Hq]; [|exact Hq].
      rewrite Hq. apply H. eapply list_elem_of_lookup_2. exact Hl.
    + rewrite (partial_update_product_missing _ _ _ Hf). exact H.
  - destruct (find_product pid (PRODUCTS st)) as [[i p]|] eqn:Hf.
    + rewrite (delete_product_found _ _ i p Hf). intros q Hq. cbn [CATEGORIES PRODUCTS ADMIN_SESSIONS] in *.
      apply H. eapply list_elem_of_delete_inv. exact Hq.
    + unfold delete_product. run_M. rewrite Hf. exact H.
Qed.

Lemma initial_store_refs_ok : refs_ok initial_store.
Proof.
  intros p Hp.
  assert (Hall : forallb (fun q => category_exists (prod_category_id q) INITIAL_CATEGORIES)
                         INITIAL_PRODUCTS = true) by (vm_compute; reflexivity).
  rewrite forallb_forall in Hall. apply Hall. apply list_elem_of_In. exact Hp.
Qed.

(** From the seeded store, through logins and admin requests, as long as
    no request is a full product update
    ([update_product], the one handler that does not check the category),
    every product refers to an existing category: creates and partial
    updates check it, and deleting a category deletes its products. *)
Theorem serve_keeps_refs_without_full_update (evs : list Event) :
  forallb (fun ev => match ev with
                     | EvCall _ r => negb (is_full_product_update r)
                     | EvLogin _ _ => true
                     end) evs = true ->
  forall p, p ∈ PRODUCTS (serve evs initial_store) ->
  exists c, c ∈ CATEGORIES (serve evs initial_store) /\ cat_id c = prod_category_id p.
Proof.
  intros Hevs p Hp. apply category_exists_spec. revert p Hp.
  change (refs_ok (serve evs initial_store)).
  generalize initial_store_refs_ok. generalize initial_store.
  induction evs as [|[uuid4 data|tok r] rest IH]; intros st Hst; cbn in Hevs |- *; [exact Hst| |].
  - apply IH; [exact Hevs|]. unfold refs_ok.
    destruct (admin_login_catalog st uuid4 data) as [-> ->]. exact Hst.
  - apply andb_prop in Hevs as [Hr Hrest]. apply IH; [exact Hrest|].
    unfold dispatch, authenticate_admin_token. run_M.
    destruct (ADMIN_SESSIONS st !! tok); cbn; [|exact Hst].
    apply handler_refs_ok; [|exact Hst]. destruct (is_full_product_update r); done.
Qed.

Lemma serve_keeps_refs_without_full_update_witness :
  exists c,
    c ∈ CATEGORIES (serve [EvLogin "t" (mkLoginRequest "admin" "admin");
                           EvCall "t" (ReqDeleteCategory 1)] initial_store) /\
    cat_id c = 2.
Proof.
  apply (serve_keeps_refs_without_full_update
           [EvLogin "t" (mkLoginRequest "admin" "admin"); EvCall "t" (ReqDeleteCategory 1)]
           eq_refl (mkProduct 6 "Cookies" 2 "https://via.placeholder.com/150?text=Cookies" 15)).
  apply (list_elem_of_lookup_2 _ 0%nat). vm_compute. reflexivity.
Defined.

(** ** Ids stay positive *)

Definition ids_positive (st : Store) : Prop :=
  (forall x, x ∈ cat_id <$> CATEGORIES st -> 0 < x) /\
  (forall x, x ∈ prod_id <$> PRODUCTS st -> 0 < x).

Lemma py_max_default_next_positive (xs : list Z) :
  (forall x, x ∈ xs -> 0 < x) -> 0 < py_max_default 0 xs + 1.
Proof.
  intros H. destruct xs as [|x rest]; [cbn; lia|].
  assert (Hx : x ∈ x :: rest) by (apply elem_of_cons; auto).
  pose proof (H x Hx). pose proof (py_max_default_ge 0 _ _ Hx). lia.
Qed.

Lemma positive_fmap_delete {A} (f : A -> Z) (l : list A) i :
  (forall x, x ∈ f <$> l -> 0 < x) -> forall x, x ∈ f <$> delete i l -> 0 < x.
Proof.
  intros H x Hx. apply H. eapply elem_of_sublist; [exact Hx|].
  apply sublist_fmap_ids, sublist_delete.
Qed.

Lemma positive_fmap_filter {A} (f : A -> Z) (P : A -> Prop) `{!forall x, Decision (P x)} (l : list A) :
  (forall x, x ∈ f <$> l -> 0 < x) -> forall x, x ∈ f <$> filter P l -> 0 < x.
Proof.
  intros Hpos x Hx. apply Hpos. eapply elem_of_sublist; [exact Hx|].
  apply sublist_fmap_ids, sublist_filter.
Qed.

Lemma positive_fmap_snoc {A} (f : A -> Z) (l : list A) y :
  (forall x, x ∈ f <$> l -> 0 < x) -> 0 < f y -> forall x, x ∈ f <$> l ++ [y] -> 0 < x.
Proof.
  intros H Hy x Hx. rewrite fmap_app in Hx. apply elem_of_app in Hx as [Hx|Hx]; [auto|].
  cbn in Hx. apply list_elem_of_singleton in Hx. subst x. exact Hy.
Qed.

Lemma ids_positive_same_ids (st st' : Store) :
  ids st' = ids st -> ids_positive st -> ids_positive st'.
Proof. unfold ids, ids_positive. intros Heq. injection Heq as -> ->. auto. Qed.

Lemma handler_ids_positive (st : Store) (r : Request) :
  ids_positive st -> ids_positive (snd (handler r st)).
Proof.
  intros [Hc Hp]. destruct r as [d|cid d|cid d|cid|d|pid d|pid d|pid];
    cbn [handler]; rewrite ?snd_bind_ret_tt.
  - unfold create_category, _get_next_category_id. run_M. split; [|exact Hp].
    apply positive_fmap_snoc; [exact Hc|]. apply py_max_default_next_positive. exact Hc.
  - eapply ids_positive_same_ids; [apply update_category_ids|split; assumption].
  - eapply ids_positive_same_ids; [apply partial_update_category_ids|split; assumption].
  - destruct (find_category cid (CATEGORIES st)) as [[i c]|] eqn:Hf;
      [rewrite (delete_category_found _ _ i c Hf) | rewrite (delete_category_missing _ _ Hf)];
      cbn [CATEGORIES PRODUCTS snd]; [|split; assumption].
    split; [apply positive_fmap_delete; exact Hc|apply positive_fmap_filter; exact Hp].
  - unfold create_product, _get_next_product_id. run_M.
    match goal with
    | |- context [category_exists ?c ?l] => destruct (category_exists c l)
    | |- context [existsb ?f ?l] => destruct (existsb f l)
    end; cbn; split; try assumption.
    apply positive_fmap_snoc; [exact Hp|]. apply py_max_default_next_positive. exact Hp.
  - eapply ids_positive_same_ids; [apply update_product_ids|split; assumption].
  - eapply ids_positive_same_ids; [apply partial_update_product_ids|split; assumption].
  - destruct (find_product pid (PRODUCTS st)) as [[i p]|] eqn:Hf.
    + rewrite (delete_product_found _ _ i p Hf). cbn [CATEGORIES PRODUCTS snd].
      split; [exact Hc|apply positive_fmap_delete; exact Hp].
    + unfold delete_product. run_M. rewrite Hf. split; assumption.
Qed.

Lemma initial_store_ids_positive : ids_positive initial_store.
Proof.
  split; intros x Hx; apply list_elem_of_In in Hx; vm_compute in Hx;
    repeat (destruct Hx as [<-|Hx]; [lia|]); destruct Hx.
Qed.

(** From the seeded store, after any sequence of logins and admin
    requests, every category id and every product id is positive: the seeded ids are, and
    a new id is one above the current maximum (1 for an empty list). *)
Theorem serve_keeps_ids_positive (evs : list Event) :
  (forall c, c ∈ CATEGORIES (serve evs initial_store) -> 0 < cat_id c) /\
  (forall p, p ∈ PRODUCTS (serve evs initial_store) -> 0 < prod_id p).
Proof.
  assert (Hinv : ids_positive (serve evs initial_store)).
  { generalize initial_store_ids_positive. generalize initial_store.
    induction evs as [|[uuid4 data|tok r] rest IH]; intros st Hst; cbn; [exact Hst| |].
    { apply IH. unfold ids_positive. destruct (admin_login_catalog st uuid4 data) as [-> ->].
      exact Hst. }
    apply IH. unfold dispatch, authenticate_admin_token. run_M.
    destruct (ADMIN_SESSIONS st !! tok); cbn; [apply handler_ids_positive|]; exact Hst. }
  destruct Hinv as [Hc Hp]. split.
  - intros c Hin. apply Hc, list_elem_of_fmap_2. exact Hin.
  - intros p Hin. apply Hp, list_elem_of_fmap_2. exact Hin.
Qed.
